(** * permcalc: UNIX permission and umask calculator (EXPERIMENT/Ex1.cpp)

    A shallow embedding of the calculator and the proofs of its
    specification.  The program reads two whitespace-delimited tokens
    (mode, umask), validates each as a 4-digit octal string, parses them,
    computes [effective = mode & ~umask & 0777] and prints the result in
    octal and in symbolic (rwxrwxrwx) form.

    Machine model: [int] is the 32-bit two's-complement integer, carried
    as a [Z] with its wrap-around written out where the source does
    arithmetic; plain [char] is the signed 8-bit character of the g++
    targets named in the build line.  Bitwise operators on [int] are the
    [Z] ones (two's complement on both sides), [>>] is the arithmetic
    shift.  The streams are strings: [cin] is the unread input, [cout]
    the text written so far. *)

From Stdlib Require Import ZArith String Ascii List Bool Lia.
Import ListNotations.

Local Open Scope string_scope.
Local Open Scope Z_scope.

(** ** Machine types *)

Module Cxx.

Definition int_min : Z := - 2 ^ 31.
Definition int_max : Z := 2 ^ 31 - 1.

Definition in_int (z : Z) : Prop := int_min <= z <= int_max.

(** Result of an [int] operation whose mathematical value is [z]. *)
Definition wrap_int (z : Z) : Z := (z + 2 ^ 31) mod 2 ^ 32 - 2 ^ 31.

(** [int] converted to [unsigned int], as the [oct] output conversion does. *)
Definition to_unsigned (z : Z) : Z := z mod 2 ^ 32.

(** Integer promotion of a plain (signed) [char]. *)
Definition char_to_int (c : ascii) : Z :=
  let n := Z.of_N (N_of_ascii c) in
  if n <? 128 then n else n - 256.

(** The same promotion on a target whose plain [char] is unsigned. *)
Definition uchar_to_int (c : ascii) : Z := Z.of_N (N_of_ascii c).

(** A condition of integer type is true when it is not zero. *)
Definition truthy (z : Z) : bool := negb (z =? 0).

(** [std::isspace] in the "C" locale: the characters [operator>>] skips. *)
Definition isspace (c : ascii) : bool :=
  let n := N_of_ascii c in
  ((9 <=? n) && (n <=? 13) || (n =? 32))%N.

Definition newline : string := String (ascii_of_N 10) EmptyString.

End Cxx.

Import Cxx.

(** ** The functions of Ex1.cpp *)

(** [error_out]: appends one formatted error line to [cout]. *)
Definition error_out (code msg : string) (cout : string) : string :=
  cout ++ "ERROR: " ++ code ++ ": " ++ msg ++ newline.

(** The range-for loop of [is_valid_octal4]. *)
Fixpoint all_octal_chars (s : string) : bool :=
  match s with
  | EmptyString => true
  | String c s' =>
      if (char_to_int c <? char_to_int "0") || (char_to_int c >? char_to_int "7")
      then false
      else all_octal_chars s'
  end.

Definition is_valid_octal4 (s : string) : bool :=
  if negb (Nat.eqb (String.length s) 4) then false
  else all_octal_chars s.

(** The range-for loop of [octal_to_int], started at [value]. *)
Fixpoint octal_to_int_loop (value : Z) (s : string) : Z :=
  match s with
  | EmptyString => value
  | String c s' =>
      octal_to_int_loop
        (wrap_int (wrap_int (value * 8) + (char_to_int c - char_to_int "0"))) s'
  end.

Definition octal_to_int (s : string) : Z := octal_to_int_loop 0 s.

(** Character of one octal digit [d] (0..7). *)
Definition octal_digit (d : Z) : ascii := ascii_of_N (Z.to_N (48 + d)).

(** Base-8 digits of the unsigned value [n], most significant first, no
    leading zeros ("0" for zero).  Eleven digits cover 32 bits. *)
Fixpoint oct_digits (fuel : nat) (n : Z) (acc : string) : string :=
  match fuel with
  | O => acc
  | S fuel' =>
      let acc' := String (octal_digit (n mod 8)) acc in
      if n / 8 =? 0 then acc' else oct_digits fuel' (n / 8) acc'
  end.

(** [ss << oct << v] into an empty stream. *)
Definition print_oct (v : Z) : string := oct_digits 11 (to_unsigned v) EmptyString.

Fixpoint fill (n : nat) (c : ascii) : string :=
  match n with
  | O => EmptyString
  | S n' => String c (fill n' c)
  end.

(** [setfill(c) << setw(w)]: right-justified, padded on the left. *)
Definition pad_left (w : nat) (c : ascii) (s : string) : string :=
  fill (w - String.length s) c ++ s.

Definition int_to_octal4 (value : Z) : string :=
  pad_left 4 "0" (print_oct (Z.land value 511)).

Definition triad_to_rwx (bits : Z) : string :=
  let out := EmptyString in
  let out := out ++ String (if truthy (Z.land bits 4) then "r" else "-")%char EmptyString in
  let out := out ++ String (if truthy (Z.land bits 2) then "w" else "-")%char EmptyString in
  let out := out ++ String (if truthy (Z.land bits 1) then "x" else "-")%char EmptyString in
  out.

Definition mode_to_symbolic (mode : Z) : string :=
  let user := Z.land (Z.shiftr mode 6) 7 in
  let group := Z.land (Z.shiftr mode 3) 7 in
  let other := Z.land (Z.shiftr mode 0) 7 in
  triad_to_rwx user ++ triad_to_rwx group ++ triad_to_rwx other.

(** ** Input stream *)

Fixpoint skip_ws (s : string) : string :=
  match s with
  | EmptyString => EmptyString
  | String c s' => if isspace c then skip_ws s' else s
  end.

Fixpoint take_token (s : string) : string * string :=
  match s with
  | EmptyString => (EmptyString, EmptyString)
  | String c s' =>
      if isspace c then (EmptyString, s)
      else let (t, rest) := take_token s' in (String c t, rest)
  end.

(** [cin >> str]: skips leading whitespace, then extracts up to the next
    whitespace or the end of input.  Returns the token and the unread
    input; at the end of input the token is empty. *)
Definition cin_read (cin : string) : string * string :=
  take_token (skip_ws cin).

(** ** main *)

(** What one run leaves behind: the exit status, everything written to
    [cout], and the part of [cin] that was never consumed. *)
Record run : Type := mkRun {
  exit_code : Z;
  cout_text : string;
  cin_rest : string
}.

Definition mode_prompt : string := "Enter file mode (4-digit octal, e.g., 0644): ".
Definition umask_prompt : string := "Enter umask (4-digit octal, e.g., 0022): ".

(** Line 132: [(mode & (~umask)) & 0777]. *)
Definition effective (mode umask : Z) : Z :=
  Z.land (Z.land mode (Z.lnot umask)) 511.

Definition main (cin : string) : run :=
  let cout := mode_prompt in
  let '(modeStr, cin) := cin_read cin in
  if negb (is_valid_octal4 modeStr) then
    mkRun 1 (error_out "E_OCTAL" "mode must be 4-digit octal (0000-0777)" cout) cin
  else
  let cout := cout ++ umask_prompt in
  let '(umaskStr, cin) := cin_read cin in
  if negb (is_valid_octal4 umaskStr) then
    mkRun 1 (error_out "E_OCTAL" "umask must be 4-digit octal (0000-0777)" cout) cin
  else
  let mode := octal_to_int modeStr in
  let umask := octal_to_int umaskStr in
  if mode >? 511 then
    mkRun 1 (error_out "E_RANGE" "mode out of range (0000-0777)" cout) cin
  else if umask >? 511 then
    mkRun 1 (error_out "E_RANGE" "umask out of range (0000-0777)" cout) cin
  else
  let effective := effective mode umask in
  let cout := cout ++ newline ++ "OK: EFFECTIVE " ++ int_to_octal4 effective ++ newline in
  let cout := cout ++ "OK: SYMBOLIC " ++ mode_to_symbolic effective ++ newline in
  mkRun 0 cout cin.

(** The lines of a text: the pieces between newline characters. *)
Fixpoint lines_from (cur : string) (s : string) : list string :=
  match s with
  | EmptyString => match cur with EmptyString => [] | _ => [cur] end
  | String c s' =>
      if Ascii.eqb c (ascii_of_N 10) then cur :: lines_from EmptyString s'
      else lines_from (cur ++ String c EmptyString) s'
  end.

Definition lines (s : string) : list string := lines_from EmptyString s.

(** ** Vocabulary of the specification *)

Definition octal_chars : list ascii := ["0"; "1"; "2"; "3"; "4"; "5"; "6"; "7"]%char.

(** [c] is an ASCII digit in the range '0'..'7'. *)
Definition octal_char (c : ascii) : Prop := In c octal_chars.

(** Numeric value of a digit character. *)
Definition digit_value (c : ascii) : Z := Z.of_N (N_of_ascii c) - 48.

(** Value of the digit at position [i] of [s] (0 outside of [s]). *)
Definition digit_at (s : string) (i : nat) : Z :=
  match String.get i s with
  | Some c => digit_value c
  | None => 0
  end.

Definition str4 (c0 c1 c2 c3 : ascii) : string :=
  String c0 (String c1 (String c2 (String c3 EmptyString))).

(** Boolean form of [octal_char]. *)
Definition octal_charb (c : ascii) : bool := existsb (Ascii.eqb c) octal_chars.

(** One character of the symbolic form: [c] when the bit is set. *)
Definition rwx_char (b : bool) (c : ascii) : ascii := if b then c else "-"%char.

(** Texts a run can leave on [cout]. *)

Definition mode_octal_error : string :=
  mode_prompt ++ "ERROR: E_OCTAL: mode must be 4-digit octal (0000-0777)" ++ newline.

Definition mode_range_error : string :=
  mode_prompt ++ umask_prompt ++ "ERROR: E_RANGE: mode out of range (0000-0777)" ++ newline.

Definition umask_range_error : string :=
  mode_prompt ++ umask_prompt ++ "ERROR: E_RANGE: umask out of range (0000-0777)" ++ newline.

Definition success_text (e : Z) : string :=
  mode_prompt ++ umask_prompt ++ newline ++
  "OK: EFFECTIVE " ++ int_to_octal4 e ++ newline ++
  "OK: SYMBOLIC " ++ mode_to_symbolic e ++ newline.

Definition umask_octal_error : string :=
  mode_prompt ++ umask_prompt ++ "ERROR: E_OCTAL: umask must be 4-digit octal (0000-0777)" ++ newline.

(** Every character of [s] satisfies [p]. *)
Fixpoint all_chars (p : ascii -> bool) (s : string) : bool :=
  match s with
  | EmptyString => true
  | String c s' => p c && all_chars p s'
  end.

(** Only whitespace (possibly nothing at all). *)
Definition blank (s : string) : bool := all_chars isspace s.

(** A token as [operator>>] delimits it: not empty, no whitespace. *)
Definition word (s : string) : bool :=
  match s with
  | EmptyString => false
  | String _ _ => all_chars (fun c => negb (isspace c)) s
  end.

(** The input ends here or goes on with whitespace. *)
Definition at_boundary (s : string) : bool :=
  match s with
  | EmptyString => true
  | String c _ => isspace c
  end.

Definition no_newline (s : string) : bool :=
  all_chars (fun c => negb (Ascii.eqb c (ascii_of_N 10))) s.

(** Base-8 value of a digit string over the unbounded integers. *)
Fixpoint base8_value_from (acc : Z) (s : string) : Z :=
  match s with
  | EmptyString => acc
  | String c s' => base8_value_from (acc * 8 + digit_value c) s'
  end.

Definition base8_value (s : string) : Z := base8_value_from 0 s.

(** Case analysis over the 256 characters. *)
Ltac each_ascii c :=
  let b0 := fresh "b" in let b1 := fresh "b" in let b2 := fresh "b" in
  let b3 := fresh "b" in let b4 := fresh "b" in let b5 := fresh "b" in
  let b6 := fresh "b" in let b7 := fresh "b" in
  destruct c as [b0 b1 b2 b3 b4 b5 b6 b7];
  destruct b0, b1, b2, b3, b4, b5, b6, b7.

(** * Proofs *)

(** ** Characters *)

Lemma octal_charb_spec (c : ascii) : octal_charb c = true <-> octal_char c.
Proof.
  unfold octal_charb, octal_char. rewrite existsb_exists. split.
  - intros [x [Hin Heq]]. apply Ascii.eqb_eq in Heq. now subst.
  - intros Hin. exists c. split; [assumption | apply Ascii.eqb_refl].
Qed.

(** The rejection test of the validator's loop is the negation of
    "is an octal digit". *)
Lemma reject_test_spec (c : ascii) :
  (char_to_int c <? char_to_int "0") || (char_to_int c >? char_to_int "7")
  = negb (octal_charb c).
Proof. each_ascii c; reflexivity. Qed.

(** The test gives the same answer where plain [char] is unsigned. *)
Lemma reject_test_unsigned (c : ascii) :
  (uchar_to_int c <? uchar_to_int "0") || (uchar_to_int c >? uchar_to_int "7")
  = (char_to_int c <? char_to_int "0") || (char_to_int c >? char_to_int "7").
Proof. each_ascii c; reflexivity. Qed.

Lemma octal_char_value (c : ascii) :
  octal_char c ->
  char_to_int c - char_to_int "0" = digit_value c /\ 0 <= digit_value c <= 7.
Proof.
  unfold octal_char, octal_chars. simpl.
  intros H. repeat (destruct H as [<- | H]; [vm_compute; intuition congruence |]).
  contradiction.
Qed.

Lemma octal_char_not_space (c : ascii) : octal_char c -> isspace c = false.
Proof.
  unfold octal_char, octal_chars. simpl.
  intros H. repeat (destruct H as [<- | H]; [reflexivity |]).
  contradiction.
Qed.

Lemma octal_digit_char (d : Z) :
  0 <= d <= 7 -> octal_char (octal_digit d) /\ digit_value (octal_digit d) = d.
Proof.
  intros H.
  assert (Hd : d = 0 \/ d = 1 \/ d = 2 \/ d = 3 \/ d = 4 \/ d = 5 \/ d = 6 \/ d = 7) by lia.
  unfold octal_char, octal_chars.
  repeat (destruct Hd as [-> | Hd]; [split; [simpl; tauto | reflexivity] |]).
  subst d. split; [simpl; tauto | reflexivity].
Qed.

(** ** Validator *)

Lemma all_octal_chars_spec (s : string) :
  all_octal_chars s = true <->
  (forall c, In c (list_ascii_of_string s) -> octal_char c).
Proof.
  induction s as [| c s IH]; simpl.
  - split; [intros _ c [] | reflexivity].
  - rewrite reject_test_spec.
    destruct (octal_charb c) eqn:Hc; simpl.
    + rewrite IH. apply octal_charb_spec in Hc. split.
      * intros H x [<- | Hx]; auto.
      * intros H x Hx. apply H. now right.
    + split; [discriminate |].
      intros H. assert (Hoc : octal_char c) by (apply H; now left).
      apply octal_charb_spec in Hoc. congruence.
Qed.

Lemma is_valid_octal4_spec (s : string) :
  is_valid_octal4 s = true <->
  String.length s = 4%nat /\
  (forall c, In c (list_ascii_of_string s) -> octal_char c).
Proof.
  unfold is_valid_octal4.
  destruct (Nat.eqb (String.length s) 4) eqn:Hlen; simpl.
  - apply Nat.eqb_eq in Hlen. rewrite all_octal_chars_spec. tauto.
  - apply Nat.eqb_neq in Hlen. split; [discriminate | tauto].
Qed.

Lemma length4_inv (s : string) :
  String.length s = 4%nat -> exists c0 c1 c2 c3, s = str4 c0 c1 c2 c3.
Proof.
  destruct s as [| c0 [| c1 [| c2 [| c3 [| c4 s]]]]]; simpl; try discriminate.
  intros _. now exists c0, c1, c2, c3.
Qed.

(** An accepted string is four octal digit characters. *)
Lemma valid_inv (s : string) :
  is_valid_octal4 s = true ->
  exists c0 c1 c2 c3,
    s = str4 c0 c1 c2 c3 /\
    octal_char c0 /\ octal_char c1 /\ octal_char c2 /\ octal_char c3.
Proof.
  rewrite is_valid_octal4_spec. intros [Hlen Hall].
  destruct (length4_inv s Hlen) as (c0 & c1 & c2 & c3 & ->).
  exists c0, c1, c2, c3.
  repeat split; apply Hall; simpl; tauto.
Qed.

(** ** Parser *)

Lemma wrap_int_id (z : Z) : in_int z -> wrap_int z = z.
Proof.
  unfold in_int, int_min, int_max, wrap_int. intros H.
  rewrite Z.mod_small; lia.
Qed.

(** One iteration of the parsing loop on a digit does not overflow while
    the accumulator is below 2^27. *)
Lemma octal_step (value : Z) (c : ascii) :
  octal_char c -> 0 <= value < 2 ^ 27 ->
  wrap_int (wrap_int (value * 8) + (char_to_int c - char_to_int "0"))
  = value * 8 + digit_value c.
Proof.
  intros Hc Hv. destruct (octal_char_value c Hc) as [-> Hd].
  rewrite (wrap_int_id (value * 8)) by (unfold in_int, int_min, int_max; lia).
  apply wrap_int_id. unfold in_int, int_min, int_max. lia.
Qed.

Lemma octal_to_int_str4 (c0 c1 c2 c3 : ascii) :
  octal_char c0 -> octal_char c1 -> octal_char c2 -> octal_char c3 ->
  octal_to_int (str4 c0 c1 c2 c3)
  = digit_value c0 * 8 ^ 3 + digit_value c1 * 8 ^ 2 + digit_value c2 * 8 + digit_value c3.
Proof.
  intros H0 H1 H2 H3.
  pose proof (octal_char_value c0 H0) as [_ B0].
  pose proof (octal_char_value c1 H1) as [_ B1].
  pose proof (octal_char_value c2 H2) as [_ B2].
  pose proof (octal_char_value c3 H3) as [_ B3].
  unfold octal_to_int, str4. cbn [octal_to_int_loop].
  rewrite (octal_step 0 c0) by (auto; lia).
  rewrite (octal_step _ c1) by (auto; lia).
  rewrite (octal_step _ c2) by (auto; lia).
  rewrite (octal_step _ c3) by (auto; lia).
  lia.
Qed.

(** ** Bit masks *)

Lemma land_511 (v : Z) : Z.land v 511 = v mod 512.
Proof. change 511 with (Z.ones 9). now rewrite Z.land_ones by lia. Qed.

Lemma land_511_range (v : Z) : 0 <= Z.land v 511 <= 511.
Proof. rewrite land_511. pose proof (Z.mod_pos_bound v 512). lia. Qed.

Lemma land_511_small (v : Z) : 0 <= v <= 511 -> Z.land v 511 = v.
Proof. intros H. rewrite land_511. apply Z.mod_small. lia. Qed.

(** Masking with a single bit [2^k] and testing against zero reads bit [k]. *)
Lemma truthy_bit (x : Z) (k : Z) :
  0 <= k -> truthy (Z.land x (2 ^ k)) = Z.testbit x k.
Proof.
  intros Hk. unfold truthy.
  destruct (Z.testbit x k) eqn:Hb.
  - assert (E : Z.land x (2 ^ k) = 2 ^ k).
    { apply Z.bits_inj'. intros n Hn.
      rewrite Z.land_spec, Z.pow2_bits_eqb by assumption.
      destruct (Z.eqb_spec k n) as [-> | _]; [now rewrite Hb | apply andb_false_r]. }
    rewrite E. pose proof (Z.pow_pos_nonneg 2 k).
    destruct (Z.eqb_spec (2 ^ k) 0); [lia | reflexivity].
  - assert (E : Z.land x (2 ^ k) = 0).
    { apply Z.bits_inj'. intros n Hn.
      rewrite Z.land_spec, Z.pow2_bits_eqb, Z.bits_0 by assumption.
      destruct (Z.eqb_spec k n) as [-> | _]; [now rewrite Hb | apply andb_false_r]. }
    now rewrite E.
Qed.

(** Bit [k] (0, 1 or 2) of the triad taken at shift [s] is bit [s + k] of
    the mode. *)
Lemma triad_bit (v s k : Z) :
  0 <= s -> 0 <= k < 3 ->
  Z.testbit (Z.land (Z.shiftr v s) 7) k = Z.testbit v (k + s).
Proof.
  intros Hs Hk. change 7 with (Z.ones 3).
  rewrite Z.land_spec, Z.shiftr_spec by lia.
  rewrite Z.ones_spec_low by lia. apply andb_true_r.
Qed.

Lemma low9_bit (v k : Z) :
  0 <= k < 9 -> Z.testbit (Z.land v 511) k = Z.testbit v k.
Proof.
  intros Hk. change 511 with (Z.ones 9).
  rewrite Z.land_spec, Z.ones_spec_low by lia. apply andb_true_r.
Qed.

(** ** Formatter *)

(** Eleven digits are enough for every 32-bit value: once the fuel covers
    the digits of [n], more fuel does not change the output. *)
Lemma oct_digits_enough_fuel (fuel : nat) :
  forall (n : Z) (acc : string) (extra : nat),
    0 <= n < 8 ^ Z.of_nat (S fuel) ->
    oct_digits (S fuel + extra) n acc = oct_digits (S fuel) n acc.
Proof.
  induction fuel as [| fuel IH]; intros n acc extra Hn.
  - change (8 ^ Z.of_nat 1) with 8 in Hn.
    cbn [Nat.add oct_digits]. rewrite (Z.div_small n 8) by lia. reflexivity.
  - change (S (S fuel) + extra)%nat with (S (S fuel + extra)).
    cbn [oct_digits].
    destruct (Z.eqb_spec (n / 8) 0) as [_ | _]; [reflexivity |].
    apply IH. split; [apply Z.div_pos; lia |].
    apply Z.div_lt_upper_bound; [lia |].
    rewrite <- Z.pow_succ_r by lia. rewrite <- Nat2Z.inj_succ. apply Hn.
Qed.

Lemma print_oct_fuel (v : Z) (extra : nat) :
  oct_digits (11 + extra) (to_unsigned v) EmptyString = print_oct v.
Proof.
  unfold print_oct. apply (oct_digits_enough_fuel 10).
  unfold to_unsigned. pose proof (Z.mod_pos_bound v (2 ^ 32) ltac:(lia)).
  change (8 ^ Z.of_nat 11) with (2 ^ 33). lia.
Qed.

Lemma triad_to_rwx_bits (bits : Z) :
  triad_to_rwx bits =
  String (rwx_char (Z.testbit bits 2) "r")
    (String (rwx_char (Z.testbit bits 1) "w")
       (String (rwx_char (Z.testbit bits 0) "x") EmptyString)).
Proof.
  pose proof (truthy_bit bits 2 ltac:(lia)) as H2. change (2 ^ 2) with 4 in H2.
  pose proof (truthy_bit bits 1 ltac:(lia)) as H1. change (2 ^ 1) with 2 in H1.
  pose proof (truthy_bit bits 0 ltac:(lia)) as H0. change (2 ^ 0) with 1 in H0.
  unfold triad_to_rwx, rwx_char. rewrite H2, H1, H0. reflexivity.
Qed.

(** Each of the nine characters is decided by one bit of the mode. *)
Lemma mode_to_symbolic_bits (v : Z) :
  mode_to_symbolic v =
  triad_to_rwx (Z.land (Z.shiftr v 6) 7) ++
  triad_to_rwx (Z.land (Z.shiftr v 3) 7) ++
  triad_to_rwx (Z.land v 7)
  /\
  mode_to_symbolic v =
  string_of_list_ascii
  [ rwx_char (Z.testbit v 8) "r"; rwx_char (Z.testbit v 7) "w"; rwx_char (Z.testbit v 6) "x";
    rwx_char (Z.testbit v 5) "r"; rwx_char (Z.testbit v 4) "w"; rwx_char (Z.testbit v 3) "x";
    rwx_char (Z.testbit v 2) "r"; rwx_char (Z.testbit v 1) "w"; rwx_char (Z.testbit v 0) "x" ]%char.
Proof.
  unfold mode_to_symbolic. rewrite Z.shiftr_0_r. split; [reflexivity |].
  rewrite <- (Z.shiftr_0_r v) at 3.
  rewrite !triad_to_rwx_bits, !triad_bit by lia.
  reflexivity.
Qed.

Lemma print_oct_small (v : Z) :
  0 <= v <= 511 ->
  pad_left 4 "0" (print_oct v)
  = str4 "0" (octal_digit (v / 64)) (octal_digit (v / 8 mod 8)) (octal_digit (v mod 8)).
Proof.
  intros Hv. unfold print_oct, to_unsigned.
  rewrite (Z.mod_small v) by lia.
  cbn [oct_digits].
  assert (E64 : v / 8 / 8 = v / 64) by (rewrite Z.div_div by lia; reflexivity).
  destruct (Z.eqb_spec (v / 8) 0) as [E1 | N1].
  - assert (v / 64 = 0) by (apply Z.div_small; apply Z.div_small_iff in E1; lia).
    rewrite H, E1. reflexivity.
  - destruct (Z.eqb_spec (v / 8 / 8) 0) as [E2 | N2].
    + rewrite <- E64, E2. reflexivity.
    + assert (E3 : v / 8 / 8 / 8 = 0).
      { rewrite !Z.div_div by lia. apply Z.div_small. lia. }
      rewrite E3. cbn [Z.eqb].
      assert (Em : v / 8 / 8 mod 8 = v / 64).
      { rewrite E64. apply Z.mod_small.
        split; [apply Z.div_pos; lia | apply Z.div_lt_upper_bound; lia]. }
      rewrite Em. reflexivity.
Qed.

Lemma int_to_octal4_digits (v : Z) :
  int_to_octal4 v
  = let w := Z.land v 511 in
    str4 "0" (octal_digit (w / 64)) (octal_digit (w / 8 mod 8)) (octal_digit (w mod 8)).
Proof. unfold int_to_octal4. apply print_oct_small, land_511_range. Qed.

Lemma base8_digits_range (w : Z) :
  0 <= w <= 511 -> 0 <= w / 64 <= 7 /\ 0 <= w / 8 mod 8 <= 7 /\ 0 <= w mod 8 <= 7.
Proof.
  intros H. repeat split.
  - apply Z.div_pos; lia.
  - apply Z.lt_succ_r, Z.div_lt_upper_bound; lia.
  - apply Z.mod_pos_bound; lia.
  - pose proof (Z.mod_pos_bound (w / 8) 8); lia.
  - apply Z.mod_pos_bound; lia.
  - pose proof (Z.mod_pos_bound w 8); lia.
Qed.

Lemma base8_digits_sum (w : Z) :
  0 <= w <= 511 -> w / 64 * 64 + w / 8 mod 8 * 8 + w mod 8 = w.
Proof.
  intros H.
  pose proof (Z.div_mod w 8 ltac:(lia)).
  pose proof (Z.div_mod (w / 8) 8 ltac:(lia)).
  assert (w / 8 / 8 = w / 64) by (rewrite Z.div_div by lia; reflexivity).
  lia.
Qed.

Lemma int_to_octal4_valid (v : Z) : is_valid_octal4 (int_to_octal4 v) = true.
Proof.
  rewrite int_to_octal4_digits. cbv zeta.
  destruct (base8_digits_range _ (land_511_range v)) as (B2 & B1 & B0).
  apply is_valid_octal4_spec. split; [reflexivity |].
  intros c Hc. simpl in Hc.
  destruct Hc as [<- | [<- | [<- | [<- | []]]]].
  - apply (octal_digit_char 0). lia.
  - now apply octal_digit_char.
  - now apply octal_digit_char.
  - now apply octal_digit_char.
Qed.

Lemma octal_to_int_int_to_octal4 (v : Z) :
  octal_to_int (int_to_octal4 v) = Z.land v 511.
Proof.
  rewrite int_to_octal4_digits. cbv zeta.
  pose proof (land_511_range v) as Hw.
  destruct (base8_digits_range _ Hw) as (B2 & B1 & B0).
  rewrite octal_to_int_str4;
    try (apply octal_digit_char; assumption);
    try (apply (octal_digit_char 0); lia).
  destruct (octal_digit_char _ B2) as [_ ->].
  destruct (octal_digit_char _ B1) as [_ ->].
  destruct (octal_digit_char _ B0) as [_ ->].
  change (digit_value "0") with 0.
  pose proof (base8_digits_sum _ Hw). lia.
Qed.

(** ** Input stream *)

Lemma skip_ws_nonspace (c : ascii) (s : string) :
  isspace c = false -> skip_ws (String c s) = String c s.
Proof. intros H. simpl. now rewrite H. Qed.

Lemma take_token_word (t : string) (sp : ascii) (rest : string) :
  (forall c, In c (list_ascii_of_string t) -> isspace c = false) ->
  isspace sp = true ->
  take_token (t ++ String sp rest) = (t, String sp rest).
Proof.
  intros Ht Hsp. induction t as [| c t IH]; simpl.
  - now rewrite Hsp.
  - rewrite (Ht c) by (simpl; now left).
    rewrite IH; [reflexivity |].
    intros x Hx. apply Ht. simpl. now right.
Qed.

(** Reading returns an accepted string as it stands when whitespace
    follows it. *)
Lemma cin_read_valid (m : string) (sp : ascii) (rest : string) :
  is_valid_octal4 m = true -> isspace sp = true ->
  cin_read (m ++ String sp rest) = (m, String sp rest).
Proof.
  intros Hm Hsp. unfold cin_read.
  apply is_valid_octal4_spec in Hm. destruct Hm as [Hlen Hall].
  assert (Hns : forall c, In c (list_ascii_of_string m) -> isspace c = false)
    by (intros c Hc; apply octal_char_not_space, Hall, Hc).
  destruct m as [| c m]; [discriminate |].
  change ((String c m ++ String sp rest)%string) with (String c (m ++ String sp rest)).
  rewrite skip_ws_nonspace by (apply Hns; simpl; now left).
  change (String c (m ++ String sp rest)) with ((String c m ++ String sp rest)%string).
  now apply take_token_word.
Qed.

Lemma cin_read_skip (sp : ascii) (s : string) :
  isspace sp = true -> cin_read (String sp s) = cin_read s.
Proof. intros H. unfold cin_read. simpl. now rewrite H. Qed.

(** ** Runs of main *)

Lemma append_assoc (a b c : string) : ((a ++ b) ++ c = a ++ (b ++ c))%string.
Proof. induction a as [| x a IH]; simpl; [reflexivity | now rewrite IH]. Qed.

Lemma main_mode_invalid (cin modeStr rest : string) :
  cin_read cin = (modeStr, rest) ->
  is_valid_octal4 modeStr = false ->
  main cin = mkRun 1 mode_octal_error rest.
Proof.
  intros Hread Hbad. unfold main. rewrite Hread, Hbad. reflexivity.
Qed.

Lemma main_mode_range (cin modeStr r1 umaskStr r2 : string) :
  cin_read cin = (modeStr, r1) -> cin_read r1 = (umaskStr, r2) ->
  is_valid_octal4 modeStr = true -> is_valid_octal4 umaskStr = true ->
  octal_to_int modeStr > 511 ->
  main cin = mkRun 1 mode_range_error r2.
Proof.
  intros H1 H2 Vm Vu Hgt. unfold main. rewrite H1, Vm. cbn [negb].
  rewrite H2, Vu. cbn [negb].
  destruct (Z.gtb_spec (octal_to_int modeStr) 511) as [_ | Hle]; [reflexivity | lia].
Qed.

Lemma main_success (cin modeStr r1 umaskStr r2 : string) :
  cin_read cin = (modeStr, r1) -> cin_read r1 = (umaskStr, r2) ->
  is_valid_octal4 modeStr = true -> is_valid_octal4 umaskStr = true ->
  octal_to_int modeStr <= 511 -> octal_to_int umaskStr <= 511 ->
  main cin
  = mkRun 0 (success_text (effective (octal_to_int modeStr) (octal_to_int umaskStr))) r2.
Proof.
  intros H1 H2 Vm Vu Lm Lu. unfold main. rewrite H1, Vm. cbn [negb].
  rewrite H2, Vu. cbn [negb].
  destruct (Z.gtb_spec (octal_to_int modeStr) 511) as [Hgt | _]; [lia |].
  destruct (Z.gtb_spec (octal_to_int umaskStr) 511) as [Hgt | _]; [lia |].
  unfold success_text. f_equal.
  rewrite !append_assoc. reflexivity.
Qed.

Lemma main_exit_0 (cin modeStr r1 umaskStr r2 : string) :
  cin_read cin = (modeStr, r1) -> cin_read r1 = (umaskStr, r2) ->
  exit_code (main cin) = 0 ->
  is_valid_octal4 modeStr = true /\ is_valid_octal4 umaskStr = true /\
  octal_to_int modeStr <= 511 /\ octal_to_int umaskStr <= 511.
Proof.
  intros H1 H2. unfold main. rewrite H1.
  destruct (is_valid_octal4 modeStr); cbn [negb exit_code]; [| discriminate].
  rewrite H2.
  destruct (is_valid_octal4 umaskStr); cbn [negb exit_code]; [| discriminate].
  destruct (Z.gtb_spec (octal_to_int modeStr) 511); cbn [exit_code]; [discriminate |].
  destruct (Z.gtb_spec (octal_to_int umaskStr) 511); cbn [exit_code]; [discriminate |].
  intros _. repeat split; assumption.
Qed.

(** The program is total and exits with status 0 or 1. *)
Lemma main_exit_code (cin : string) :
  exit_code (main cin) = 0 \/ exit_code (main cin) = 1.
Proof.
  unfold main.
  destruct (cin_read cin) as [modeStr r1].
  destruct (is_valid_octal4 modeStr); cbn [negb exit_code]; [| now right].
  destruct (cin_read r1) as [umaskStr r2].
  destruct (is_valid_octal4 umaskStr); cbn [negb exit_code]; [| now right].
  destruct (octal_to_int modeStr >? 511); [now right |].
  destruct (octal_to_int umaskStr >? 511); [now right | now left].
Qed.

Lemma valid_leading_digit (s : string) :
  is_valid_octal4 s = true ->
  0 <= octal_to_int s <= 4095 /\
  (octal_to_int s <= 511 <-> String.get 0 s = Some "0"%char).
Proof.
  intros Hv. destruct (valid_inv s Hv) as (c0 & c1 & c2 & c3 & -> & H0 & H1 & H2 & H3).
  rewrite octal_to_int_str4 by assumption.
  pose proof (octal_char_value c1 H1) as [_ B1].
  pose proof (octal_char_value c2 H2) as [_ B2].
  pose proof (octal_char_value c3 H3) as [_ B3].
  cbn [str4 String.get].
  unfold octal_char, octal_chars in H0. simpl in H0.
  destruct H0 as [<- | H0].
  { change (digit_value "0") with 0. repeat split; try lia. }
  repeat (destruct H0 as [<- | H0];
          [ match goal with
            | |- context [digit_value ?c] =>
                let d := eval vm_compute in (digit_value c) in
                change (digit_value c) with d
            end;
            split; [lia | split; [lia | discriminate]] | ]).
  contradiction.
Qed.

Lemma effective_range (mode umask : Z) :
  0 <= effective mode umask <= 511 /\
  Z.land (effective mode umask) 511 = effective mode umask.
Proof.
  unfold effective. split; [apply land_511_range |].
  rewrite <- Z.land_assoc. now rewrite Z.land_diag.
Qed.

(** The complement taken on the 32-bit pattern of [umask] gives the same
    nine low bits: the bits above bit 8 are discarded by the mask. *)
Lemma effective_fixed_width (mode umask : Z) :
  Z.land (Z.land mode (to_unsigned (Z.lnot umask))) 511 = effective mode umask.
Proof.
  unfold effective, to_unsigned. apply Z.bits_inj'. intros n Hn.
  rewrite !Z.land_spec. change 511 with (Z.ones 9).
  destruct (Z.ltb_spec n 9) as [Hlt | Hge].
  - rewrite Z.mod_pow2_bits_low by lia. reflexivity.
  - rewrite Z.ones_spec_high by lia. now rewrite !andb_false_r.
Qed.

(** Triads put side by side are rendered side by side. *)
Lemma mode_to_symbolic_compose (u g o : Z) :
  0 <= u <= 7 -> 0 <= g <= 7 -> 0 <= o <= 7 ->
  mode_to_symbolic (u * 64 + g * 8 + o)
  = (triad_to_rwx u ++ triad_to_rwx g ++ triad_to_rwx o)%string.
Proof.
  intros Hu Hg Ho. unfold mode_to_symbolic.
  change 7 with (Z.ones 3). rewrite !Z.land_ones, !Z.shiftr_div_pow2 by lia.
  change (2 ^ 6) with 64. change (2 ^ 3) with 8. change (2 ^ 0) with 1.
  set (x := u * 64 + g * 8 + o).
  assert (E6 : x / 64 = u) by (symmetry; apply (Z.div_unique x 64 u (g * 8 + o)); lia).
  assert (E3 : x / 8 = u * 8 + g) by (symmetry; apply (Z.div_unique x 8 (u * 8 + g) o); lia).
  assert (M0 : x mod 8 = o) by (symmetry; apply (Z.mod_unique x 8 (u * 8 + g) o); lia).
  assert (M3 : (u * 8 + g) mod 8 = g) by (symmetry; apply (Z.mod_unique _ 8 u g); lia).
  rewrite E6, E3, M3, Z.div_1_r, M0, (Z.mod_small u) by lia.
  reflexivity.
Qed.

Lemma main_umask_range (cin modeStr r1 umaskStr r2 : string) :
  cin_read cin = (modeStr, r1) -> cin_read r1 = (umaskStr, r2) ->
  is_valid_octal4 modeStr = true -> is_valid_octal4 umaskStr = true ->
  octal_to_int modeStr <= 511 -> octal_to_int umaskStr > 511 ->
  main cin = mkRun 1 umask_range_error r2.
Proof.
  intros H1 H2 Vm Vu Hle Hgt. unfold main. rewrite H1, Vm. cbn [negb].
  rewrite H2, Vu. cbn [negb].
  destruct (Z.gtb_spec (octal_to_int modeStr) 511) as [Hm | _]; [lia |].
  destruct (Z.gtb_spec (octal_to_int umaskStr) 511) as [_ | Hu]; [reflexivity | lia].
Qed.

(** * The claims of the specification *)

(** C1 (counterexample): on mode "0644" and umask "0022" the effective
    value is not 388, and neither [OK: EFFECTIVE 0604] nor
    [OK: SYMBOLIC rw----r--] is among the lines the program writes. *)
Lemma scenario_0644_0022_not_0604 :
  effective (octal_to_int "0644") (octal_to_int "0022") <> 388 /\
  Z.land (Z.land 420 (Z.lnot 18)) 511 <> 388 /\
  ~ In "OK: EFFECTIVE 0604"
      (lines (cout_text (main ("0644" ++ newline ++ "0022" ++ newline)))) /\
  ~ In "OK: SYMBOLIC rw----r--"
      (lines (cout_text (main ("0644" ++ newline ++ "0022" ++ newline)))).
Proof.
  repeat split; vm_compute; try discriminate;
    intros [H | [H | [H | []]]]; discriminate.
Qed.

(** C1 (amended): whenever the two tokens read are "0644" and "0022", the
    parsed values are 420 and 18, the effective value is
    420 & ~18 & 511 = 420, the run succeeds, and the text written is the
    two prompts followed by the lines [OK: EFFECTIVE 0644] and
    [OK: SYMBOLIC rw-r--r--]. *)
Theorem scenario_0644_0022 (cin r1 r2 : string) :
  cin_read cin = ("0644", r1) -> cin_read r1 = ("0022", r2) ->
  octal_to_int "0644" = 420 /\ octal_to_int "0022" = 18 /\
  effective 420 18 = 420 /\
  main cin = mkRun 0 (success_text 420) r2 /\
  lines (cout_text (main cin))
  = [ mode_prompt ++ umask_prompt; "OK: EFFECTIVE 0644"; "OK: SYMBOLIC rw-r--r--" ].
Proof.
  intros H1 H2.
  assert (Hrun : main cin = mkRun 0 (success_text 420) r2).
  { rewrite (main_success cin "0644" r1 "0022" r2 H1 H2);
      try reflexivity; vm_compute; discriminate. }
  repeat split; try reflexivity; try assumption.
  rewrite Hrun. reflexivity.
Qed.

Lemma scenario_0644_0022_witness :
  let cin := "0644" ++ newline ++ "0022" ++ newline in
  cin_read cin = ("0644", newline ++ "0022" ++ newline) /\
  cin_read (newline ++ "0022" ++ newline) = ("0022", newline) /\
  main cin = mkRun 0 (success_text 420) newline /\
  lines (cout_text (main cin))
  = [ mode_prompt ++ umask_prompt; "OK: EFFECTIVE 0644"; "OK: SYMBOLIC rw-r--r--" ].
Proof.
  split; [reflexivity | split; [reflexivity |]].
  apply (scenario_0644_0022 ("0644" ++ newline ++ "0022" ++ newline)
           (newline ++ "0022" ++ newline) newline); reflexivity.
Defined.

(** C2 (counterexample): "7777" is accepted by the validator, parses to
    4095 > 511, and a run on it takes the E_RANGE branch. *)
Lemma accepted_7777_exceeds_511 :
  is_valid_octal4 "7777" = true /\
  octal_to_int "7777" = 4095 /\
  ~ octal_to_int "7777" <= 511 /\
  main ("7777 0022" ++ newline) = mkRun 1 mode_range_error newline.
Proof. repeat split; vm_compute; congruence. Qed.

(** C2 (amended): for every string the validator accepts, the parsed
    integer lies between 0 and 4095 (07777), and it is at most 511 exactly
    when the first character is '0'.  The E_RANGE branches of main are
    reachable: an accepted mode above 511, when the umask token is
    accepted too, ends the run with the E_RANGE mode error, and an
    accepted umask above 511, after an accepted mode within 0..511, with
    the E_RANGE umask error. *)
Theorem accepted_value_range (s : string) :
  is_valid_octal4 s = true ->
  0 <= octal_to_int s <= 4095 /\
  (octal_to_int s <= 511 <-> String.get 0 s = Some "0"%char) /\
  (forall cin r1 u r2,
      cin_read cin = (s, r1) -> cin_read r1 = (u, r2) ->
      is_valid_octal4 u = true -> octal_to_int s > 511 ->
      main cin = mkRun 1 mode_range_error r2) /\
  (forall cin m r1 r2,
      cin_read cin = (m, r1) -> cin_read r1 = (s, r2) ->
      is_valid_octal4 m = true -> octal_to_int m <= 511 -> octal_to_int s > 511 ->
      main cin = mkRun 1 umask_range_error r2).
Proof.
  intros Hv. destruct (valid_leading_digit s Hv) as [Hr Hl].
  repeat split; try lia; try apply Hl.
  - intros cin r1 u r2 H1 H2 Vu Hgt. now apply (main_mode_range cin s r1 u r2).
  - intros cin m r1 r2 H1 H2 Vm Hle Hgt. now apply (main_umask_range cin m r1 s r2).
Qed.

Lemma accepted_value_range_witness :
  is_valid_octal4 "7777" = true /\
  0 <= octal_to_int "7777" <= 4095 /\
  main ("7777 0022" ++ newline) = mkRun 1 mode_range_error newline /\
  main ("0644 7777" ++ newline) = mkRun 1 umask_range_error newline.
Proof.
  split; [reflexivity |].
  destruct (accepted_value_range "7777" eq_refl) as (Hr & _ & Hm & Hu).
  split; [exact Hr |]. split.
  - apply (Hm _ (" 0022" ++ newline)%string "0022" newline);
      reflexivity.
  - apply (Hu _ "0644" (" 7777" ++ newline)%string newline);
      try reflexivity; vm_compute; congruence.
Defined.

(** C3: the validator accepts a string if and only if it has exactly four
    characters and each of them is a digit '0'..'7'.  "644" is rejected;
    so are strings padded with a blank and strings carrying a sign: there
    is no trimming and no sign handling. *)
Theorem validator_spec :
  (forall s : string,
      is_valid_octal4 s = true <->
      String.length s = 4%nat /\
      (forall c, In c (list_ascii_of_string s) -> octal_char c)) /\
  is_valid_octal4 "644" = false /\
  is_valid_octal4 " 644" = false /\
  is_valid_octal4 "644 " = false /\
  is_valid_octal4 " 0644" = false /\
  is_valid_octal4 "0644 " = false /\
  is_valid_octal4 "+644" = false /\
  is_valid_octal4 "-644" = false /\
  is_valid_octal4 "+0644" = false.
Proof.
  split; [exact is_valid_octal4_spec |].
  repeat split; reflexivity.
Qed.

(** C4: for every validated string, [octal_to_int] returns the base-8
    value of its digits, digit[0]*8^3 + digit[1]*8^2 + digit[2]*8 +
    digit[3], a non-negative integer; every digit is between 0 and 7. *)
Theorem octal_to_int_base8 (s : string) :
  is_valid_octal4 s = true ->
  octal_to_int s
  = digit_at s 0 * 8 ^ 3 + digit_at s 1 * 8 ^ 2 + digit_at s 2 * 8 + digit_at s 3 /\
  0 <= octal_to_int s /\
  (forall i, (i < 4)%nat -> 0 <= digit_at s i <= 7).
Proof.
  intros Hv. destruct (valid_inv s Hv) as (c0 & c1 & c2 & c3 & -> & H0 & H1 & H2 & H3).
  rewrite octal_to_int_str4 by assumption.
  pose proof (octal_char_value c0 H0) as [_ B0].
  pose proof (octal_char_value c1 H1) as [_ B1].
  pose proof (octal_char_value c2 H2) as [_ B2].
  pose proof (octal_char_value c3 H3) as [_ B3].
  unfold digit_at, str4. cbn [String.get].
  split; [reflexivity |]. split; [lia |].
  intros i Hi.
  destruct i as [| [| [| [| i]]]]; cbn [String.get]; try assumption; lia.
Qed.

Lemma octal_to_int_base8_witness :
  is_valid_octal4 "0644" = true /\
  octal_to_int "0644" = 0 * 8 ^ 3 + 6 * 8 ^ 2 + 4 * 8 + 4.
Proof.
  split; [reflexivity |].
  exact (proj1 (octal_to_int_base8 "0644" eq_refl)).
Defined.

(** C5: for all valid 4-digit octal strings m and u, the effective value
    the program computes is octal_to_int(m) & ~octal_to_int(u) & 511; it
    is unchanged by masking again with 511 and lies in [0, 511].  A run
    that reads m and u and exits with status 0 prints exactly this value,
    and every run on parsed values within 0..511 does so. *)
Theorem effective_masked (m u : string) :
  is_valid_octal4 m = true -> is_valid_octal4 u = true ->
  let e := Z.land (Z.land (octal_to_int m) (Z.lnot (octal_to_int u))) 511 in
  effective (octal_to_int m) (octal_to_int u) = e /\
  Z.land e 511 = e /\
  0 <= e <= 511 /\
  (forall cin r1 r2,
      cin_read cin = (m, r1) -> cin_read r1 = (u, r2) ->
      exit_code (main cin) = 0 ->
      main cin = mkRun 0 (success_text e) r2) /\
  (octal_to_int m <= 511 -> octal_to_int u <= 511 ->
   main (m ++ " " ++ u ++ newline) = mkRun 0 (success_text e) newline).
Proof.
  intros Vm Vu e.
  assert (He : effective (octal_to_int m) (octal_to_int u) = e) by reflexivity.
  destruct (effective_range (octal_to_int m) (octal_to_int u)) as [Hr Hi].
  rewrite He in Hr, Hi.
  repeat split; try assumption; try lia.
  - intros cin r1 r2 H1 H2 H0.
    destruct (main_exit_0 cin m r1 u r2 H1 H2 H0) as (_ & _ & Lm & Lu).
    rewrite <- He. now apply (main_success cin m r1 u r2).
  - intros Lm Lu. rewrite <- He.
    apply (main_success _ m (" " ++ u ++ newline)%string u newline); try assumption.
    + now apply (cin_read_valid m " "%char (u ++ newline)).
    + change ((" " ++ u ++ newline)%string) with (String " "%char (u ++ newline)).
      rewrite cin_read_skip by reflexivity.
      now apply (cin_read_valid u (ascii_of_N 10) EmptyString).
Qed.

Lemma effective_masked_witness :
  is_valid_octal4 "0755" = true /\ is_valid_octal4 "0027" = true /\
  effective (octal_to_int "0755") (octal_to_int "0027") = 488 /\
  Z.land 488 511 = 488 /\
  main ("0755 0027" ++ newline) = mkRun 0 (success_text 488) newline.
Proof.
  split; [reflexivity | split; [reflexivity |]].
  destruct (effective_masked "0755" "0027" eq_refl eq_refl) as (He & Hi & _ & _ & Hrun).
  split; [exact He | split; [exact Hi |]].
  apply Hrun; vm_compute; discriminate.
Defined.

(** C6: round trip.  For every integer v in [0, 511], parsing the 4-digit
    octal rendering of v gives v back. *)
Theorem octal_roundtrip (v : Z) :
  0 <= v <= 511 -> octal_to_int (int_to_octal4 v) = v.
Proof.
  intros Hv. rewrite octal_to_int_int_to_octal4. now apply land_511_small.
Qed.

Lemma octal_roundtrip_witness :
  0 <= 420 <= 511 /\ octal_to_int (int_to_octal4 420) = 420.
Proof. split; [lia | apply (octal_roundtrip 420); lia]. Defined.

(** C7: for every v in [0, 511] the symbolic rendering is the
    concatenation, in user, group, other order, of the renderings of the
    triads (v >> 6) & 7, (v >> 3) & 7 and (v >> 0) & 7; it has 9
    characters, and each character is decided by its own bit of v alone
    (bits 8, 7, 6 for the user, 5, 4, 3 for the group, 2, 1, 0 for the
    others), so no triad influences another.  A triad maps bit 4 to 'r',
    bit 2 to 'w' and bit 1 to 'x', '-' otherwise.  511 renders
    "rwxrwxrwx" and 0 renders "---------". *)
Theorem symbolic_rendering (v : Z) :
  0 <= v <= 511 ->
  mode_to_symbolic v
  = (triad_to_rwx (Z.land (Z.shiftr v 6) 7) ++
     triad_to_rwx (Z.land (Z.shiftr v 3) 7) ++
     triad_to_rwx (Z.land (Z.shiftr v 0) 7))%string /\
  String.length (mode_to_symbolic v) = 9%nat /\
  list_ascii_of_string (mode_to_symbolic v)
  = [ rwx_char (Z.testbit v 8) "r"; rwx_char (Z.testbit v 7) "w"; rwx_char (Z.testbit v 6) "x";
      rwx_char (Z.testbit v 5) "r"; rwx_char (Z.testbit v 4) "w"; rwx_char (Z.testbit v 3) "x";
      rwx_char (Z.testbit v 2) "r"; rwx_char (Z.testbit v 1) "w"; rwx_char (Z.testbit v 0) "x"
    ]%char /\
  v = Z.land (Z.shiftr v 6) 7 * 64 + Z.land (Z.shiftr v 3) 7 * 8 + Z.land (Z.shiftr v 0) 7 /\
  map triad_to_rwx [0; 1; 2; 3; 4; 5; 6; 7]
  = ["---"; "--x"; "-w-"; "-wx"; "r--"; "r-x"; "rw-"; "rwx"] /\
  mode_to_symbolic 511 = "rwxrwxrwx" /\
  mode_to_symbolic 0 = "---------".
Proof.
  intros Hv. destruct (mode_to_symbolic_bits v) as [_ Hbits].
  split; [reflexivity |].
  split; [rewrite Hbits; reflexivity |].
  split; [rewrite Hbits; reflexivity |].
  split; [| repeat split; reflexivity].
  change 7 with (Z.ones 3). rewrite !Z.land_ones, !Z.shiftr_div_pow2 by lia.
  change (2 ^ 6) with 64. change (2 ^ 3) with 8. change (2 ^ 0) with 1.
  rewrite Z.div_1_r.
  destruct (base8_digits_range v Hv) as (B2 & _ & _).
  rewrite (Z.mod_small (v / 64)) by lia.
  change (2 ^ 3) with 8.
  symmetry. now apply base8_digits_sum.
Qed.

Lemma symbolic_rendering_witness :
  0 <= 420 <= 511 /\
  mode_to_symbolic 420 = "rw-r--r--" /\
  String.length (mode_to_symbolic 420) = 9%nat.
Proof.
  split; [lia |].
  destruct (symbolic_rendering 420 ltac:(lia)) as (_ & Hlen & _).
  split; [reflexivity | exact Hlen].
Defined.

(** C8: whenever the mode token fails validation, the program writes only
    the mode prompt and, on that single line, the error
    [ERROR: E_OCTAL: mode must be 4-digit octal (0000-0777)]; it exits
    with status 1; the umask prompt is not written and the input after
    the mode token is left unread.  "999" is such a token. *)
Theorem invalid_mode_fails_fast (cin modeStr rest : string) :
  cin_read cin = (modeStr, rest) ->
  is_valid_octal4 modeStr = false ->
  main cin
  = mkRun 1
      (mode_prompt ++ "ERROR: E_OCTAL: mode must be 4-digit octal (0000-0777)" ++ newline)
      rest /\
  lines (cout_text (main cin))
  = [ mode_prompt ++ "ERROR: E_OCTAL: mode must be 4-digit octal (0000-0777)" ] /\
  exit_code (main cin) = 1 /\
  String.index 0 umask_prompt (cout_text (main cin)) = None /\
  cin_rest (main cin) = rest /\
  is_valid_octal4 "999" = false.
Proof.
  intros Hread Hbad.
  rewrite (main_mode_invalid cin modeStr rest Hread Hbad).
  repeat split; reflexivity.
Qed.

Lemma invalid_mode_fails_fast_witness :
  cin_read ("999 0022" ++ newline) = ("999", " 0022" ++ newline) /\
  is_valid_octal4 "999" = false /\
  exit_code (main ("999 0022" ++ newline)) = 1 /\
  cin_rest (main ("999 0022" ++ newline)) = " 0022" ++ newline.
Proof.
  split; [reflexivity | split; [reflexivity |]].
  destruct (invalid_mode_fails_fast ("999 0022" ++ newline) "999" (" 0022" ++ newline)
              eq_refl eq_refl) as (_ & _ & Hexit & _ & Hrest & _).
  split; [exact Hexit | exact Hrest].
Defined.

(** C9: for every v in [0, 511], [int_to_octal4 v] has exactly 4
    characters, all octal digits; the first is '0' and the other three are
    the base-8 digits of v, most significant first.  420 renders "0644". *)
Theorem int_to_octal4_format (v : Z) :
  0 <= v <= 511 ->
  String.length (int_to_octal4 v) = 4%nat /\
  is_valid_octal4 (int_to_octal4 v) = true /\
  String.get 0 (int_to_octal4 v) = Some "0"%char /\
  v = digit_at (int_to_octal4 v) 1 * 8 ^ 2
      + digit_at (int_to_octal4 v) 2 * 8
      + digit_at (int_to_octal4 v) 3 /\
  int_to_octal4 420 = "0644".
Proof.
  intros Hv.
  split; [rewrite int_to_octal4_digits; reflexivity |].
  split; [apply int_to_octal4_valid |].
  split; [rewrite int_to_octal4_digits; reflexivity |].
  split; [| reflexivity].
  rewrite int_to_octal4_digits. cbv zeta. rewrite (land_511_small v Hv).
  destruct (base8_digits_range v Hv) as (B2 & B1 & B0).
  unfold digit_at, str4. cbn [String.get].
  destruct (octal_digit_char _ B2) as [_ ->].
  destruct (octal_digit_char _ B1) as [_ ->].
  destruct (octal_digit_char _ B0) as [_ ->].
  pose proof (base8_digits_sum v Hv). lia.
Qed.

Lemma int_to_octal4_format_witness :
  0 <= 493 <= 511 /\
  String.length (int_to_octal4 493) = 4%nat /\
  String.get 0 (int_to_octal4 493) = Some "0"%char /\
  int_to_octal4 493 = "0755".
Proof.
  split; [lia |].
  destruct (int_to_octal4_format 493 ltac:(lia)) as (Hlen & _ & Hlead & _).
  split; [exact Hlen | split; [exact Hlead | reflexivity]].
Defined.

(** C10: for every integer v, also above 511 or negative, only the low 9
    bits matter to both renderers: mode_to_symbolic(v) =
    mode_to_symbolic(v & 511) and int_to_octal4(v) = int_to_octal4(v & 511);
    the symbolic string always has 9 characters and the octal one 4. *)
Theorem renderers_low9_only (v : Z) :
  mode_to_symbolic v = mode_to_symbolic (Z.land v 511) /\
  String.length (mode_to_symbolic v) = 9%nat /\
  int_to_octal4 v = int_to_octal4 (Z.land v 511) /\
  String.length (int_to_octal4 v) = 4%nat.
Proof.
  destruct (mode_to_symbolic_bits v) as [_ Hv].
  destruct (mode_to_symbolic_bits (Z.land v 511)) as [_ Hw].
  split; [| split; [| split]].
  - rewrite Hv, Hw, !low9_bit by lia. reflexivity.
  - rewrite Hv. reflexivity.
  - unfold int_to_octal4. rewrite <- Z.land_assoc. now rewrite Z.land_diag.
  - rewrite int_to_octal4_digits. reflexivity.
Qed.

(** * Further properties of the code *)

(** ** Tokens and whitespace *)

Lemma append_nil_r (s : string) : (s ++ EmptyString)%string = s.
Proof. induction s as [| c s IH]; simpl; [reflexivity | now rewrite IH]. Qed.

Lemma skip_ws_blank (ws s : string) :
  blank ws = true -> skip_ws (ws ++ s) = skip_ws s.
Proof.
  unfold blank. induction ws as [| c ws IH]; simpl; [reflexivity |].
  intros H. apply andb_prop in H. destruct H as [Hc Hws].
  rewrite Hc. now apply IH.
Qed.

Lemma skip_ws_all_blank (ws : string) : blank ws = true -> skip_ws ws = EmptyString.
Proof.
  intros H. rewrite <- (append_nil_r ws). now rewrite skip_ws_blank.
Qed.

Lemma skip_ws_word (t s : string) : word t = true -> skip_ws (t ++ s) = (t ++ s)%string.
Proof.
  destruct t as [| c t]; [discriminate |]. cbn [word all_chars].
  intros H. apply andb_prop in H. destruct H as [Hc _].
  apply skip_ws_nonspace. now destruct (isspace c).
Qed.

Lemma take_token_chars (t rest : string) :
  all_chars (fun c => negb (isspace c)) t = true ->
  at_boundary rest = true ->
  take_token (t ++ rest) = (t, rest).
Proof.
  intros Ht Hr. induction t as [| c t IH].
  - destruct rest as [| c rest]; [reflexivity |].
    cbn in Hr |- *. now rewrite Hr.
  - cbn [all_chars] in Ht. apply andb_prop in Ht. destruct Ht as [Hc Ht].
    cbn [append take_token]. destruct (isspace c); [discriminate |].
    now rewrite (IH Ht).
Qed.

(** Reading skips the whitespace in front, takes the word and stops at the
    boundary behind it. *)
Lemma cin_read_word (ws t rest : string) :
  blank ws = true -> word t = true -> at_boundary rest = true ->
  cin_read (ws ++ t ++ rest) = (t, rest).
Proof.
  intros Hws Ht Hr. unfold cin_read.
  rewrite skip_ws_blank, skip_ws_word by assumption.
  apply take_token_chars; [| assumption].
  destruct t; [discriminate | exact Ht].
Qed.

Lemma cin_read_blank (ws : string) :
  blank ws = true -> cin_read ws = (EmptyString, EmptyString).
Proof. intros H. unfold cin_read. now rewrite skip_ws_all_blank. Qed.

Lemma at_boundary_blank (ws s : string) :
  blank ws = true -> ws <> EmptyString -> at_boundary (ws ++ s) = true.
Proof.
  destruct ws as [| c ws]; [congruence |].
  cbn. intros H _. apply andb_prop in H. tauto.
Qed.

Lemma valid_word (s : string) : is_valid_octal4 s = true -> word s = true.
Proof.
  intros Hv. destruct (valid_inv s Hv) as (c0 & c1 & c2 & c3 & -> & H0 & H1 & H2 & H3).
  cbn. now rewrite !octal_char_not_space.
Qed.

Lemma skip_ws_split (s : string) :
  exists ws, s = (ws ++ skip_ws s)%string /\ blank ws = true.
Proof.
  induction s as [| c s (ws & E & B)].
  - now exists EmptyString.
  - cbn [skip_ws]. destruct (isspace c) eqn:Hc.
    + exists (String c ws). cbn. rewrite Hc, <- E. tauto.
    + now exists EmptyString.
Qed.

Lemma take_token_split (s : string) :
  s = (fst (take_token s) ++ snd (take_token s))%string /\
  all_chars (fun c => negb (isspace c)) (fst (take_token s)) = true /\
  at_boundary (snd (take_token s)) = true.
Proof.
  induction s as [| c s (E & A & B)]; [now cbn |].
  cbn [take_token]. destruct (isspace c) eqn:Hc.
  - cbn. now rewrite Hc.
  - destruct (take_token s) as [t r]. cbn in *. rewrite Hc, <- E. tauto.
Qed.

(** What a read consumes: whitespace, then the token it returns. *)
Lemma cin_read_split (cin t rest : string) :
  cin_read cin = (t, rest) ->
  exists ws, cin = (ws ++ t ++ rest)%string /\ blank ws = true /\
             all_chars (fun c => negb (isspace c)) t = true /\
             at_boundary rest = true.
Proof.
  unfold cin_read. intros H.
  destruct (skip_ws_split cin) as (ws & E & B).
  destruct (take_token_split (skip_ws cin)) as (E' & A & Bd).
  rewrite H in E', A, Bd. cbn [fst snd] in E', A, Bd.
  exists ws. rewrite <- E'. tauto.
Qed.

(** ** Runs of main, by the two tokens read *)

Lemma main_umask_invalid (cin modeStr r1 umaskStr r2 : string) :
  cin_read cin = (modeStr, r1) -> cin_read r1 = (umaskStr, r2) ->
  is_valid_octal4 modeStr = true -> is_valid_octal4 umaskStr = false ->
  main cin = mkRun 1 umask_octal_error r2.
Proof.
  intros H1 H2 Vm Vu. unfold main. rewrite H1, Vm. cbn [negb].
  rewrite H2, Vu. reflexivity.
Qed.

(** Exit status and output are a function of the two tokens alone. *)
Lemma main_same_tokens (cin cin' m r1 r1' u r2 r2' : string) :
  cin_read cin = (m, r1) -> cin_read r1 = (u, r2) ->
  cin_read cin' = (m, r1') -> cin_read r1' = (u, r2') ->
  exit_code (main cin) = exit_code (main cin') /\
  cout_text (main cin) = cout_text (main cin').
Proof.
  intros H1 H2 H1' H2'. unfold main. rewrite H1, H1'.
  destruct (is_valid_octal4 m); cbn [negb]; [| now split].
  rewrite H2, H2'.
  destruct (is_valid_octal4 u); cbn [negb]; [| now split].
  destruct (octal_to_int m >? 511); [now split |].
  destruct (octal_to_int u >? 511); now split.
Qed.

Lemma at_boundary_of_blank (ws : string) : blank ws = true -> at_boundary ws = true.
Proof.
  destruct ws as [| c ws]; [reflexivity |].
  cbn. intros H. apply andb_prop in H. tauto.
Qed.

(** ** Error paths and input handling of main *)

(** X1: when the mode token is accepted and the umask token is not, the
    run writes both prompts and the E_OCTAL umask error on one line and
    exits with 1, whatever the mode's value: the format of the umask is
    checked before the range of the mode. *)
Theorem invalid_umask_reported (cin m r1 u r2 : string) :
  cin_read cin = (m, r1) -> cin_read r1 = (u, r2) ->
  is_valid_octal4 m = true -> is_valid_octal4 u = false ->
  main cin
  = mkRun 1
      (mode_prompt ++ umask_prompt ++
       "ERROR: E_OCTAL: umask must be 4-digit octal (0000-0777)" ++ newline) r2 /\
  lines (cout_text (main cin))
  = [ mode_prompt ++ umask_prompt ++
      "ERROR: E_OCTAL: umask must be 4-digit octal (0000-0777)" ].
Proof.
  intros H1 H2 Vm Vu.
  rewrite (main_umask_invalid cin m r1 u r2 H1 H2 Vm Vu). split; reflexivity.
Qed.

Lemma invalid_umask_reported_witness :
  cin_read ("7777 0abc" ++ newline) = ("7777", " 0abc" ++ newline) /\
  cin_read (" 0abc" ++ newline) = ("0abc", newline) /\
  is_valid_octal4 "7777" = true /\ is_valid_octal4 "0abc" = false /\
  main ("7777 0abc" ++ newline) = mkRun 1 umask_octal_error newline.
Proof.
  repeat (split; [reflexivity |]).
  exact (proj1 (invalid_umask_reported ("7777 0abc" ++ newline) "7777"
                  (" 0abc" ++ newline) "0abc" newline eq_refl eq_refl eq_refl eq_refl)).
Defined.

(** X2: a run exits with status 0 exactly when both tokens read are four
    octal digits of which the first is '0'. *)
Theorem success_iff (cin m r1 u r2 : string) :
  cin_read cin = (m, r1) -> cin_read r1 = (u, r2) ->
  (exit_code (main cin) = 0 <->
   (is_valid_octal4 m = true /\ String.get 0 m = Some "0"%char) /\
   (is_valid_octal4 u = true /\ String.get 0 u = Some "0"%char)).
Proof.
  intros H1 H2. split.
  - intros H0. destruct (main_exit_0 cin m r1 u r2 H1 H2 H0) as (Vm & Vu & Lm & Lu).
    split; (split; [assumption |]).
    + now apply (valid_leading_digit m Vm).
    + now apply (valid_leading_digit u Vu).
  - intros [[Vm Zm] [Vu Zu]].
    apply (valid_leading_digit m Vm) in Zm. apply (valid_leading_digit u Vu) in Zu.
    now rewrite (main_success cin m r1 u r2 H1 H2 Vm Vu Zm Zu).
Qed.

Lemma success_iff_witness :
  cin_read ("0750 0027" ++ newline) = ("0750", " 0027" ++ newline) /\
  cin_read (" 0027" ++ newline) = ("0027", newline) /\
  exit_code (main ("0750 0027" ++ newline)) = 0.
Proof.
  split; [reflexivity | split; [reflexivity |]].
  apply (success_iff ("0750 0027" ++ newline) "0750" (" 0027" ++ newline) "0027" newline
           eq_refl eq_refl).
  repeat split; reflexivity.
Defined.

(** X3: every run ends in one of five ways: status 0 with the two prompts
    and the two OK lines of some value in 0..511, or status 1 with exactly
    one of the four error texts.  No run mixes an error with OK lines or
    reports two errors. *)
Theorem main_outcomes (cin : string) :
  (exit_code (main cin) = 0 /\
   exists e, 0 <= e <= 511 /\ cout_text (main cin) = success_text e) \/
  (exit_code (main cin) = 1 /\
   In (cout_text (main cin))
      [ mode_octal_error; umask_octal_error; mode_range_error; umask_range_error ]).
Proof.
  destruct (cin_read cin) as [m r1] eqn:H1.
  destruct (is_valid_octal4 m) eqn:Vm.
  2:{ right. rewrite (main_mode_invalid cin m r1 H1 Vm). cbn. tauto. }
  destruct (cin_read r1) as [u r2] eqn:H2.
  destruct (is_valid_octal4 u) eqn:Vu.
  2:{ right. rewrite (main_umask_invalid cin m r1 u r2 H1 H2 Vm Vu). cbn. tauto. }
  destruct (Z.le_gt_cases (octal_to_int m) 511) as [Lm | Gm].
  2:{ right. rewrite (main_mode_range cin m r1 u r2 H1 H2 Vm Vu) by lia. cbn. tauto. }
  destruct (Z.le_gt_cases (octal_to_int u) 511) as [Lu | Gu].
  2:{ right. rewrite (main_umask_range cin m r1 u r2 H1 H2 Vm Vu) by lia. cbn. tauto. }
  left. rewrite (main_success cin m r1 u r2 H1 H2 Vm Vu Lm Lu). cbn [exit_code cout_text].
  split; [reflexivity |].
  exists (effective (octal_to_int m) (octal_to_int u)).
  split; [apply effective_range | reflexivity].
Qed.

(** X4: on an input without any token (empty, or whitespace only) the mode
    read yields the empty string and the run stops with the E_OCTAL mode
    error and status 1. *)
Theorem blank_input_rejected (cin : string) :
  blank cin = true ->
  cin_read cin = (EmptyString, EmptyString) /\
  main cin = mkRun 1 mode_octal_error EmptyString.
Proof.
  intros Hb. split; [now apply cin_read_blank |].
  apply (main_mode_invalid cin EmptyString EmptyString).
  - now apply cin_read_blank.
  - reflexivity.
Qed.

Lemma blank_input_rejected_witness :
  blank (" " ++ newline) = true /\
  main (" " ++ newline) = mkRun 1 mode_octal_error EmptyString /\
  main EmptyString = mkRun 1 mode_octal_error EmptyString.
Proof.
  split; [reflexivity |]. split.
  - apply (blank_input_rejected (" " ++ newline)). reflexivity.
  - apply (blank_input_rejected EmptyString). reflexivity.
Defined.

(** X5: when the input holds an accepted mode and then nothing but
    whitespace, the umask read yields the empty string and the run stops
    with the E_OCTAL umask error and status 1. *)
Theorem missing_umask_rejected (ws0 m ws1 : string) :
  blank ws0 = true -> is_valid_octal4 m = true -> blank ws1 = true ->
  cin_read (ws0 ++ m ++ ws1) = (m, ws1) /\
  cin_read ws1 = (EmptyString, EmptyString) /\
  main (ws0 ++ m ++ ws1) = mkRun 1 umask_octal_error EmptyString.
Proof.
  intros B0 Vm B1.
  assert (R1 : cin_read (ws0 ++ m ++ ws1) = (m, ws1))
    by (apply cin_read_word;
        [assumption | now apply valid_word | now apply at_boundary_of_blank]).
  assert (R2 : cin_read ws1 = (EmptyString, EmptyString)) by now apply cin_read_blank.
  split; [exact R1 | split; [exact R2 |]].
  now apply (main_umask_invalid _ m ws1 EmptyString EmptyString).
Qed.

Lemma missing_umask_rejected_witness :
  blank " " = true /\ is_valid_octal4 "0644" = true /\ blank newline = true /\
  main (" 0644" ++ newline) = mkRun 1 umask_octal_error EmptyString.
Proof.
  repeat (split; [reflexivity |]).
  apply (missing_umask_rejected " " "0644" newline); reflexivity.
Defined.

(** X6: only the two tokens matter.  Whitespace before the mode, the kind
    and amount of whitespace between the tokens, and anything after the
    whitespace that ends the umask change neither the exit status nor the
    text written. *)
Theorem separators_irrelevant (ws0 m ws1 u rest : string) :
  blank ws0 = true -> word m = true ->
  blank ws1 = true -> ws1 <> EmptyString ->
  word u = true -> at_boundary rest = true ->
  exit_code (main (ws0 ++ m ++ ws1 ++ u ++ rest)) = exit_code (main (m ++ " " ++ u)) /\
  cout_text (main (ws0 ++ m ++ ws1 ++ u ++ rest)) = cout_text (main (m ++ " " ++ u)).
Proof.
  intros B0 Wm B1 N1 Wu Br.
  apply (main_same_tokens _ _ m (ws1 ++ u ++ rest) (" " ++ u) u rest EmptyString).
  - apply cin_read_word; [assumption | assumption | now apply at_boundary_blank].
  - now apply cin_read_word.
  - apply (cin_read_word EmptyString m (" " ++ u)); [reflexivity | assumption | reflexivity].
  - rewrite <- (append_nil_r u) at 1. now apply (cin_read_word " " u EmptyString).
Qed.

Lemma separators_irrelevant_witness :
  let cin := ("  0644" ++ newline ++ newline ++ "0022 and more")%string in
  exit_code (main cin) = exit_code (main "0644 0022") /\
  cout_text (main cin) = cout_text (main "0644 0022").
Proof.
  apply (separators_irrelevant "  " "0644" (newline ++ newline) "0022" " and more");
    try reflexivity. discriminate.
Defined.

(** X7: a run consumes at most two tokens with the whitespace in front of
    each: the input is that consumed part followed by the unread rest, and
    the rest is empty or starts at a whitespace character. *)
Theorem consumes_two_tokens (cin : string) :
  exists ws0 m ws1 u,
    cin = (ws0 ++ m ++ ws1 ++ u ++ cin_rest (main cin))%string /\
    blank ws0 = true /\ blank ws1 = true /\
    all_chars (fun c => negb (isspace c)) m = true /\
    all_chars (fun c => negb (isspace c)) u = true /\
    at_boundary (cin_rest (main cin)) = true.
Proof.
  destruct (cin_read cin) as [m r1] eqn:H1.
  destruct (cin_read_split cin m r1 H1) as (ws0 & E0 & B0 & A0 & D0).
  assert (Hstop : cin_rest (main cin) = r1 ->
                  exists ws0 m ws1 u,
                    cin = (ws0 ++ m ++ ws1 ++ u ++ cin_rest (main cin))%string /\
                    blank ws0 = true /\ blank ws1 = true /\
                    all_chars (fun c => negb (isspace c)) m = true /\
                    all_chars (fun c => negb (isspace c)) u = true /\
                    at_boundary (cin_rest (main cin)) = true).
  { intros ->. exists ws0, m, EmptyString, EmptyString. cbn [append]. tauto. }
  destruct (is_valid_octal4 m) eqn:Vm.
  2:{ apply Hstop. now rewrite (main_mode_invalid cin m r1 H1 Vm). }
  clear Hstop.
  destruct (cin_read r1) as [u r2] eqn:H2.
  destruct (cin_read_split r1 u r2 H2) as (ws1 & E1 & B1 & A1 & D1).
  assert (Hrest : cin_rest (main cin) = r2).
  { unfold main. rewrite H1, Vm. cbn [negb]. rewrite H2.
    destruct (is_valid_octal4 u); cbn [negb]; [| reflexivity].
    destruct (octal_to_int m >? 511); [reflexivity |].
    destruct (octal_to_int u >? 511); reflexivity. }
  exists ws0, m, ws1, u. rewrite Hrest, <- E1. tauto.
Qed.

(** ** The permission arithmetic *)

Lemma effective_testbit (m u k : Z) :
  0 <= k ->
  Z.testbit (effective m u) k
  = (k <? 9) && (Z.testbit m k && negb (Z.testbit u k)).
Proof.
  intros Hk. unfold effective. change 511 with (Z.ones 9).
  rewrite !Z.land_spec, Z.lnot_spec by assumption.
  destruct (Z.ltb_spec k 9).
  - rewrite Z.ones_spec_low by lia. now rewrite andb_true_r.
  - rewrite Z.ones_spec_high by lia. now rewrite andb_false_r.
Qed.

Lemma rwx_char_inj (x y : bool) (c : ascii) :
  c <> "-"%char -> rwx_char x c = rwx_char y c -> x = y.
Proof. destruct x, y; cbn; congruence. Qed.

(** X8: bit k of the effective value is set exactly when k < 9, the bit
    is set in the mode and it is clear in the umask; no bit above the
    nine permission bits is ever set. *)
Theorem effective_bitwise (m u k : Z) :
  0 <= k ->
  (Z.testbit (effective m u) k = true <->
   k < 9 /\ Z.testbit m k = true /\ Z.testbit u k = false).
Proof.
  intros Hk. rewrite effective_testbit by assumption.
  destruct (Z.ltb_spec k 9); destruct (Z.testbit m k), (Z.testbit u k); cbn;
    intuition (try discriminate; try lia).
Qed.

Lemma effective_bitwise_witness :
  0 <= 2 /\ Z.testbit (effective 420 18) 2 = true.
Proof.
  split; [lia |].
  apply (effective_bitwise 420 18 2); [lia |].
  split; [lia | split; reflexivity].
Defined.

(** X9: for a mode within 0..511 (what main's range guard lets through)
    the umask only takes away: the effective value is the mode minus the
    bits it shares with the umask, it never exceeds the mode, and the
    final [& 0777] of line 132 changes nothing. *)
Theorem effective_subtracts (m u : Z) :
  0 <= m <= 511 ->
  effective m u = m - Z.land m u /\
  0 <= effective m u <= m /\
  effective m u = Z.land m (Z.lnot u).
Proof.
  intros Hm.
  assert (Hd : Z.land m (Z.lnot u) = m - Z.land m u).
  { rewrite <- Z.ldiff_land.
    rewrite (Z.sub_nocarry_ldiff m (Z.land m u)).
    - apply Z.bits_inj'. intros n Hn.
      rewrite !Z.ldiff_spec, Z.land_spec.
      now destruct (Z.testbit m n), (Z.testbit u n).
    - apply Z.bits_inj'. intros n Hn.
      rewrite Z.ldiff_spec, Z.land_spec, Z.bits_0.
      now destruct (Z.testbit m n), (Z.testbit u n). }
  assert (Hn : 0 <= Z.land m u) by (apply Z.land_nonneg; lia).
  assert (Hp : 0 <= Z.land m (Z.lnot u)) by (apply Z.land_nonneg; lia).
  assert (He : effective m u = Z.land m (Z.lnot u)).
  { unfold effective. apply land_511_small. lia. }
  rewrite He. repeat split; lia.
Qed.

Lemma effective_subtracts_witness :
  0 <= 511 <= 511 /\ effective 511 18 = 511 - Z.land 511 18 /\ effective 511 18 = 493.
Proof.
  split; [lia |].
  split; [exact (proj1 (effective_subtracts 511 18 ltac:(lia))) | reflexivity].
Defined.

(** X10: masks compose.  Applying a second umask to an effective value is
    applying the union of the two umasks; applying the same umask twice
    changes nothing; the umask 0 keeps the nine mode bits and the umask
    0777 clears them all. *)
Theorem effective_compose (m u1 u2 : Z) :
  effective (effective m u1) u2 = effective m (Z.lor u1 u2) /\
  effective (effective m u1) u1 = effective m u1 /\
  effective m 0 = Z.land m 511 /\
  effective m 511 = 0.
Proof.
  repeat split; apply Z.bits_inj'; intros n Hn;
    rewrite ?effective_testbit, ?Z.lor_spec, ?Z.bits_0 by assumption.
  - now destruct (n <? 9), (Z.testbit m n), (Z.testbit u1 n), (Z.testbit u2 n).
  - now destruct (n <? 9), (Z.testbit m n), (Z.testbit u1 n).
  - change 511 with (Z.ones 9). rewrite Z.land_spec.
    destruct (Z.ltb_spec n 9).
    + rewrite Z.ones_spec_low by lia. now destruct (Z.testbit m n).
    + rewrite Z.ones_spec_high by lia. now rewrite andb_false_r.
  - change 511 with (Z.ones 9).
    destruct (Z.ltb_spec n 9).
    + rewrite Z.ones_spec_low by lia. now destruct (Z.testbit m n).
    + reflexivity.
Qed.

(** X11: what the symbolic output shows.  Each of the nine characters
    printed for the effective value is the permission letter of its
    position exactly when the mode has that bit and the umask does not,
    and '-' otherwise. *)
Theorem symbolic_of_effective (m u : Z) :
  let keeps k := Z.testbit m k && negb (Z.testbit u k) in
  list_ascii_of_string (mode_to_symbolic (effective m u))
  = [ rwx_char (keeps 8) "r"; rwx_char (keeps 7) "w"; rwx_char (keeps 6) "x";
      rwx_char (keeps 5) "r"; rwx_char (keeps 4) "w"; rwx_char (keeps 3) "x";
      rwx_char (keeps 2) "r"; rwx_char (keeps 1) "w"; rwx_char (keeps 0) "x" ]%char.
Proof.
  intros keeps. destruct (mode_to_symbolic_bits (effective m u)) as [_ ->].
  rewrite !effective_testbit by lia. reflexivity.
Qed.

(** ** Parser and renderers against each other *)

Lemma octal_digit_of_value (c : ascii) :
  octal_char c -> octal_digit (digit_value c) = c.
Proof.
  unfold octal_char, octal_chars. simpl.
  intros H. repeat (destruct H as [<- | H]; [reflexivity |]).
  contradiction.
Qed.

Lemma low3_bit (v k : Z) :
  0 <= k < 3 -> Z.testbit (Z.land v 7) k = Z.testbit v k.
Proof.
  intros Hk. change 7 with (Z.ones 3).
  rewrite Z.land_spec, Z.ones_spec_low by lia. apply andb_true_r.
Qed.

(** Two values that agree on bits 0..n-1 have the same low n bits. *)
Lemma land_ones_ext (a b n : Z) :
  0 <= n ->
  (forall k, 0 <= k < n -> Z.testbit a k = Z.testbit b k) ->
  Z.land a (Z.ones n) = Z.land b (Z.ones n).
Proof.
  intros Hn H. apply Z.bits_inj'. intros k Hk. rewrite !Z.land_spec.
  destruct (Z.ltb_spec k n).
  - now rewrite H by lia.
  - rewrite Z.ones_spec_high by lia. now rewrite !andb_false_r.
Qed.

(** X12: rendering what was parsed.  For an accepted string s the octal
    rendering of octal_to_int(s) is '0' followed by the last three
    characters of s; it is s itself when s starts with '0', that is for
    every string that passes main's range guard. *)
Theorem render_of_parse (s : string) :
  is_valid_octal4 s = true ->
  int_to_octal4 (octal_to_int s) = String "0" (substring 1 3 s) /\
  (String.get 0 s = Some "0"%char -> int_to_octal4 (octal_to_int s) = s).
Proof.
  intros Hv. destruct (valid_inv s Hv) as (c0 & c1 & c2 & c3 & -> & H0 & H1 & H2 & H3).
  assert (E : int_to_octal4 (octal_to_int (str4 c0 c1 c2 c3)) = str4 "0" c1 c2 c3).
  { rewrite int_to_octal4_digits. cbv zeta.
    rewrite octal_to_int_str4, land_511 by assumption.
    pose proof (octal_char_value c0 H0) as [_ B0].
    pose proof (octal_char_value c1 H1) as [_ B1].
    pose proof (octal_char_value c2 H2) as [_ B2].
    pose proof (octal_char_value c3 H3) as [_ B3].
    change (8 ^ 3) with 512. change (8 ^ 2) with 64.
    set (d0 := digit_value c0) in *. set (d1 := digit_value c1) in *.
    set (d2 := digit_value c2) in *. set (d3 := digit_value c3) in *.
    set (w := d1 * 64 + d2 * 8 + d3).
    assert (Ew : (d0 * 512 + d1 * 64 + d2 * 8 + d3) mod 512 = w)
      by (symmetry; apply (Z.mod_unique _ 512 d0 w); subst w; lia).
    rewrite Ew.
    assert (E2 : w / 64 = d1)
      by (symmetry; apply (Z.div_unique w 64 d1 (d2 * 8 + d3)); subst w; lia).
    assert (E1 : w / 8 = d1 * 8 + d2)
      by (symmetry; apply (Z.div_unique w 8 (d1 * 8 + d2) d3); subst w; lia).
    assert (M1 : (d1 * 8 + d2) mod 8 = d2)
      by (symmetry; apply (Z.mod_unique _ 8 d1 d2); lia).
    assert (M0 : w mod 8 = d3)
      by (symmetry; apply (Z.mod_unique w 8 (d1 * 8 + d2) d3); subst w; lia).
    rewrite E2, E1, M1, M0. subst d1 d2 d3.
    now rewrite !octal_digit_of_value. }
  rewrite E. split; [reflexivity |].
  cbn [str4 String.get]. intros Hc. now injection Hc as ->.
Qed.

Lemma render_of_parse_witness :
  is_valid_octal4 "3755" = true /\
  int_to_octal4 (octal_to_int "3755") = "0755" /\
  int_to_octal4 (octal_to_int "0755") = "0755".
Proof.
  split; [reflexivity |]. split.
  - exact (proj1 (render_of_parse "3755" eq_refl)).
  - exact (proj2 (render_of_parse "0755" eq_refl) eq_refl).
Defined.

(** X13: parsing what was rendered.  For every integer a the octal
    rendering is accepted by the validator and parses to a & 511, a value
    within main's range guard; two integers render alike exactly when
    their low nine bits agree. *)
Theorem parse_of_render (a b : Z) :
  is_valid_octal4 (int_to_octal4 a) = true /\
  octal_to_int (int_to_octal4 a) = Z.land a 511 /\
  0 <= octal_to_int (int_to_octal4 a) <= 511 /\
  (int_to_octal4 a = int_to_octal4 b <-> Z.land a 511 = Z.land b 511).
Proof.
  split; [apply int_to_octal4_valid |].
  split; [apply octal_to_int_int_to_octal4 |].
  split; [rewrite octal_to_int_int_to_octal4; apply land_511_range |].
  split.
  - intros E. rewrite <- !octal_to_int_int_to_octal4. now rewrite E.
  - intros E. unfold int_to_octal4. now rewrite E.
Qed.

(** X14: the parser is injective on accepted strings: two strings the
    validator accepts and that parse to the same integer are equal. *)
Theorem octal_to_int_injective (s t : string) :
  is_valid_octal4 s = true -> is_valid_octal4 t = true ->
  octal_to_int s = octal_to_int t -> s = t.
Proof.
  intros Vs Vt.
  destruct (valid_inv s Vs) as (a0 & a1 & a2 & a3 & -> & A0 & A1 & A2 & A3).
  destruct (valid_inv t Vt) as (b0 & b1 & b2 & b3 & -> & B0 & B1 & B2 & B3).
  rewrite !octal_to_int_str4 by assumption.
  pose proof (octal_char_value a0 A0) as [_ Ra0].
  pose proof (octal_char_value a1 A1) as [_ Ra1].
  pose proof (octal_char_value a2 A2) as [_ Ra2].
  pose proof (octal_char_value a3 A3) as [_ Ra3].
  pose proof (octal_char_value b0 B0) as [_ Rb0].
  pose proof (octal_char_value b1 B1) as [_ Rb1].
  pose proof (octal_char_value b2 B2) as [_ Rb2].
  pose proof (octal_char_value b3 B3) as [_ Rb3].
  intros E.
  assert (E0 : digit_value a0 = digit_value b0) by lia.
  assert (E1 : digit_value a1 = digit_value b1) by lia.
  assert (E2 : digit_value a2 = digit_value b2) by lia.
  assert (E3 : digit_value a3 = digit_value b3) by lia.
  rewrite <- (octal_digit_of_value a0 A0), <- (octal_digit_of_value a1 A1),
          <- (octal_digit_of_value a2 A2), <- (octal_digit_of_value a3 A3).
  rewrite E0, E1, E2, E3.
  now rewrite !octal_digit_of_value.
Qed.

Lemma octal_to_int_injective_witness :
  is_valid_octal4 "0644" = true /\
  octal_to_int "0644" = octal_to_int (int_to_octal4 420) /\
  "0644" = int_to_octal4 420.
Proof.
  split; [reflexivity | split; [reflexivity |]].
  apply (octal_to_int_injective "0644" (int_to_octal4 420)); reflexivity.
Defined.

(** X15: the symbolic form determines the nine permission bits and
    nothing else: two integers have the same symbolic rendering exactly
    when their low nine bits agree. *)
Theorem mode_to_symbolic_injective (a b : Z) :
  mode_to_symbolic a = mode_to_symbolic b <-> Z.land a 511 = Z.land b 511.
Proof.
  destruct (mode_to_symbolic_bits a) as [_ Ha].
  destruct (mode_to_symbolic_bits b) as [_ Hb].
  split.
  - intros E. rewrite Ha, Hb in E. cbn [string_of_list_ascii] in E.
    injection E as E8 E7 E6 E5 E4 E3 E2 E1 E0.
    apply rwx_char_inj in E8, E7, E6, E5, E4, E3, E2, E1, E0; try discriminate.
    change 511 with (Z.ones 9). apply land_ones_ext; [lia |].
    intros k Hk.
    assert (Hc : k = 0 \/ k = 1 \/ k = 2 \/ k = 3 \/ k = 4 \/ k = 5 \/
                 k = 6 \/ k = 7 \/ k = 8) by lia.
    repeat (destruct Hc as [-> | Hc]; [assumption |]). now subst k.
  - intros E.
    assert (Hk : forall k, 0 <= k < 9 -> Z.testbit a k = Z.testbit b k).
    { intros k Hk. rewrite <- (low9_bit a k), <- (low9_bit b k) by assumption.
      now rewrite E. }
    rewrite Ha, Hb, !Hk by lia. reflexivity.
Qed.

(** X16: a triad renders according to its low three bits alone, and
    distinct triads render differently: triad_to_rwx(a) = triad_to_rwx(b)
    exactly when a & 7 = b & 7. *)
Theorem triad_to_rwx_injective (a b : Z) :
  triad_to_rwx a = triad_to_rwx b <-> Z.land a 7 = Z.land b 7.
Proof.
  rewrite !triad_to_rwx_bits. split.
  - intros E. injection E as E2 E1 E0.
    apply rwx_char_inj in E2, E1, E0; try discriminate.
    change 7 with (Z.ones 3). apply land_ones_ext; [lia |].
    intros k Hk.
    assert (Hc : k = 0 \/ k = 1 \/ k = 2) by lia.
    repeat (destruct Hc as [-> | Hc]; [assumption |]). now subst k.
  - intros E.
    assert (Hk : forall k, 0 <= k < 3 -> Z.testbit a k = Z.testbit b k).
    { intros k Hk. rewrite <- (low3_bit a k), <- (low3_bit b k) by assumption.
      now rewrite E. }
    rewrite !Hk by lia. reflexivity.
Qed.

(** ** The lines of a successful run *)

Lemma all_chars_app (p : ascii -> bool) (a b : string) :
  all_chars p (a ++ b) = all_chars p a && all_chars p b.
Proof.
  induction a as [| c a IH]; cbn; [reflexivity |].
  now rewrite IH, andb_assoc.
Qed.

Lemma lines_from_line (a cur rest : string) :
  no_newline a = true ->
  lines_from cur (a ++ String (ascii_of_N 10) rest)
  = (cur ++ a)%string :: lines_from EmptyString rest.
Proof.
  unfold no_newline. revert cur. induction a as [| c a IH]; intros cur Ha.
  - cbn. now rewrite append_nil_r.
  - cbn [all_chars] in Ha. apply andb_prop in Ha. destruct Ha as [Hc Ha].
    cbn [append lines_from].
    destruct (Ascii.eqb c (ascii_of_N 10)); [discriminate |].
    rewrite (IH _ Ha), append_assoc. reflexivity.
Qed.

Lemma lines_three (a b c : string) :
  no_newline a = true -> no_newline b = true -> no_newline c = true ->
  lines (a ++ newline ++ b ++ newline ++ c ++ newline) = [a; b; c].
Proof.
  intros Ha Hb Hc. unfold lines, newline. cbn [append].
  rewrite (lines_from_line a), (lines_from_line b), (lines_from_line c) by assumption.
  reflexivity.
Qed.

Lemma no_newline_valid (s : string) : is_valid_octal4 s = true -> no_newline s = true.
Proof.
  intros Hv. destruct (valid_inv s Hv) as (c0 & c1 & c2 & c3 & -> & H0 & H1 & H2 & H3).
  assert (Hc : forall c, octal_char c -> negb (Ascii.eqb c (ascii_of_N 10)) = true).
  { intros c H. unfold octal_char, octal_chars in H. simpl in H.
    repeat (destruct H as [<- | H]; [reflexivity |]). contradiction. }
  unfold no_newline, str4. cbn [all_chars]. now rewrite !Hc.
Qed.

Lemma no_newline_triad (bits : Z) : no_newline (triad_to_rwx bits) = true.
Proof.
  rewrite triad_to_rwx_bits.
  now destruct (Z.testbit bits 2), (Z.testbit bits 1), (Z.testbit bits 0).
Qed.

Lemma no_newline_symbolic (v : Z) : no_newline (mode_to_symbolic v) = true.
Proof.
  unfold mode_to_symbolic, no_newline. rewrite !all_chars_app.
  fold (no_newline (triad_to_rwx (Z.land (Z.shiftr v 6) 7))).
  fold (no_newline (triad_to_rwx (Z.land (Z.shiftr v 3) 7))).
  fold (no_newline (triad_to_rwx (Z.land (Z.shiftr v 0) 7))).
  now rewrite !no_newline_triad.
Qed.

(** X17: the text of a successful run is exactly three lines: the two
    prompts (which carry no newline of their own) on the first, then
    [OK: EFFECTIVE] with the 4-digit octal value, then [OK: SYMBOLIC]
    with the 9-character form, each ended by a newline. *)
Theorem success_three_lines (cin m r1 u r2 : string) :
  cin_read cin = (m, r1) -> cin_read r1 = (u, r2) ->
  exit_code (main cin) = 0 ->
  let e := effective (octal_to_int m) (octal_to_int u) in
  lines (cout_text (main cin))
  = [ (mode_prompt ++ umask_prompt)%string;
      ("OK: EFFECTIVE " ++ int_to_octal4 e)%string;
      ("OK: SYMBOLIC " ++ mode_to_symbolic e)%string ] /\
  String.length (int_to_octal4 e) = 4%nat /\
  String.length (mode_to_symbolic e) = 9%nat.
Proof.
  intros H1 H2 H0 e.
  destruct (main_exit_0 cin m r1 u r2 H1 H2 H0) as (Vm & Vu & Lm & Lu).
  rewrite (main_success cin m r1 u r2 H1 H2 Vm Vu Lm Lu). cbn [cout_text]. fold e.
  split; [| split].
  - replace (success_text e)
      with ((mode_prompt ++ umask_prompt) ++ newline ++
            ("OK: EFFECTIVE " ++ int_to_octal4 e) ++ newline ++
            ("OK: SYMBOLIC " ++ mode_to_symbolic e) ++ newline)%string
      by (unfold success_text; rewrite !append_assoc; reflexivity).
    apply lines_three.
    + reflexivity.
    + unfold no_newline. rewrite all_chars_app.
      apply andb_true_intro. split; [reflexivity |].
      apply no_newline_valid, int_to_octal4_valid.
    + unfold no_newline. rewrite all_chars_app.
      apply andb_true_intro. split; [reflexivity |].
      apply no_newline_symbolic.
  - rewrite int_to_octal4_digits. reflexivity.
  - destruct (mode_to_symbolic_bits e) as [_ ->]. reflexivity.
Qed.

Lemma success_three_lines_witness :
  exit_code (main ("0777 0077" ++ newline)) = 0 /\
  lines (cout_text (main ("0777 0077" ++ newline)))
  = [ (mode_prompt ++ umask_prompt)%string; "OK: EFFECTIVE 0700"; "OK: SYMBOLIC rwx------" ].
Proof.
  split; [reflexivity |].
  exact (proj1 (success_three_lines ("0777 0077" ++ newline) "0777" (" 0077" ++ newline)
                  "0077" newline eq_refl eq_refl eq_refl)).
Defined.

(** ** The parsing loop beyond four digits *)

Lemma all_octal_chars_cons (c : ascii) (s : string) :
  all_octal_chars (String c s) = true -> octal_char c /\ all_octal_chars s = true.
Proof.
  cbn [all_octal_chars]. rewrite reject_test_spec.
  destruct (octal_charb c) eqn:Hc; cbn; [| discriminate].
  intros H. split; [now apply octal_charb_spec | assumption].
Qed.

Lemma octal_loop_no_wrap (s : string) :
  forall acc : Z,
    all_octal_chars s = true -> 0 <= acc ->
    (acc + 1) * 8 ^ Z.of_nat (String.length s) <= 2 ^ 31 ->
    octal_to_int_loop acc s = base8_value_from acc s /\
    acc * 8 ^ Z.of_nat (String.length s) <= base8_value_from acc s
    < (acc + 1) * 8 ^ Z.of_nat (String.length s).
Proof.
  induction s as [| c s IH]; intros acc Hs Hacc Hfit.
  - cbn. lia.
  - apply all_octal_chars_cons in Hs. destruct Hs as [Hc Hs].
    destruct (octal_char_value c Hc) as [Ed Hd].
    cbn [String.length] in *. rewrite Nat2Z.inj_succ, Z.pow_succ_r in * by lia.
    set (P := 8 ^ Z.of_nat (String.length s)) in *.
    assert (HP : 1 <= P) by (subst P; apply (Z.pow_le_mono_r 8 0); lia).
    assert (Hsmall : (acc + 1) * 8 <= 2 ^ 31) by nia.
    cbn [octal_to_int_loop base8_value_from]. rewrite Ed.
    rewrite (wrap_int_id (acc * 8)) by (unfold in_int, int_min, int_max; lia).
    rewrite wrap_int_id by (unfold in_int, int_min, int_max; lia).
    destruct (IH (acc * 8 + digit_value c) Hs ltac:(lia) ltac:(fold P; nia)) as [E B].
    fold P in B. split; [exact E | nia].
Qed.

(** X18: the parsing loop is exact on digit strings of any length up to
    ten: no 32-bit overflow occurs, [octal_to_int] returns the base-8
    value of the digits, and that value is below 8^length. *)
Theorem octal_to_int_up_to_10_digits (s : string) :
  all_octal_chars s = true -> (String.length s <= 10)%nat ->
  octal_to_int s = base8_value s /\
  0 <= octal_to_int s < 8 ^ Z.of_nat (String.length s).
Proof.
  intros Hs Hlen.
  assert (Hfit : (0 + 1) * 8 ^ Z.of_nat (String.length s) <= 2 ^ 31).
  { assert (8 ^ Z.of_nat (String.length s) <= 8 ^ 10)
      by (apply Z.pow_le_mono_r; lia).
    change (8 ^ 10) with (2 ^ 30) in H. lia. }
  destruct (octal_loop_no_wrap s 0 Hs ltac:(lia) Hfit) as [E B].
  unfold octal_to_int, base8_value. rewrite E. split; [reflexivity | lia].
Qed.

Lemma octal_to_int_up_to_10_digits_witness :
  all_octal_chars "7777777777" = true /\
  (String.length "7777777777" <= 10)%nat /\
  octal_to_int "7777777777" = 2 ^ 30 - 1.
Proof.
  split; [reflexivity | split; [cbn; lia |]].
  rewrite (proj1 (octal_to_int_up_to_10_digits "7777777777" eq_refl ltac:(cbn; lia))).
  reflexivity.
Defined.
